(** * Triangular-Arbitrage-Bot: a shallow embedding of the dashboard and of
    the backend client, with the properties of its circuit breaker, its
    opportunity list and its error handling.

    Sources embedded:
    - src/src/components/ArbitrageBotDashboard.tsx holds two versions of the
      [ArbitrageBotDashboard] component.  The first one (lines 1-437)
      simulates opportunities with a timer; it is [SimDashboard] below.  The
      second one (lines 440-) talks to the Python backend through
      [backendAPI] and a WebSocket; it is [LiveDashboard] below.
    - src/src/api/backend.ts, the [BackendAPI] class; it is [BackendAPI]
      below.

    JavaScript numbers are modelled as [Q] where they carry fractions
    (percentages, amounts) and as [Z] where the code only counts.
    Math.random() is an input of the step that calls it, ranging over
    [0, 1).  Each React event handler is one step: the setters it calls are
    batched by React and applied together. *)

From Stdlib Require Import String List ZArith QArith Bool Lia Lqa.
From Stdlib Require Import Relations.Relation_Operators.
Import ListNotations.
Open Scope Z_scope.

(** ** Data shared by both dashboards *)

(** [status: 'detected' | 'executing' | 'completed' | 'failed'] *)
Inductive OppStatus := detected | executing | completed | failed.

Definition OppStatus_eqb (a b : OppStatus) : bool :=
  match a, b with
  | detected, detected | executing, executing
  | completed, completed | failed, failed => true
  | _, _ => false
  end.

(** [interface ArbitrageOpportunity]: the fields the components read.
    [timestamp], and in backend.ts [steps] and the optional flags, are
    carried along untouched by every handler and are left out. *)
Record ArbitrageOpportunity := mkOpp {
  id : string;
  exchange : string;
  trianglePath : string;
  profitPercentage : Q;
  profitAmount : Q;
  volume : Q;
  status : OppStatus
}.

(** [{ ...opp, status: s }] *)
Definition with_status (o : ArbitrageOpportunity) (s : OppStatus) :=
  mkOpp (id o) (exchange o) (trianglePath o) (profitPercentage o)
        (profitAmount o) (volume o) s.

(** [interface ExchangeConfig] *)
Record ExchangeConfig := mkExchange {
  ex_id : string;
  ex_name : string;
  enabled : bool;
  connected : bool;
  feeToken : string;
  zeroFeePairs : Z
}.

Definition with_connected (e : ExchangeConfig) (c : bool) :=
  mkExchange (ex_id e) (ex_name e) (enabled e) c (feeToken e) (zeroFeePairs e).

Definition toggle_enabled (e : ExchangeConfig) :=
  mkExchange (ex_id e) (ex_name e) (negb (enabled e)) (connected e)
             (feeToken e) (zeroFeePairs e).

(** The Execute button of a row is rendered iff
    [o.status === 'detected'] (first component line 368, second component
    line 711).  No other state is consulted. *)
Definition execute_button_visible (o : ArbitrageOpportunity) : bool :=
  OppStatus_eqb (status o) detected.

(** ** The live dashboard (second component of ArbitrageBotDashboard.tsx) *)
Module LiveDashboard.

(** [interface AutoTradeLog] (timestamp left out). *)
Record AutoTradeLog := mkLog {
  log_id : string;
  log_exchange : string;
  log_profitPercentage : Q;
  log_profitAmount : Q;
  log_volume : Q;
  log_status : OppStatus
}.

Record AutoStats := mkAutoStats {
  autoTradesExecuted : Z;
  autoProfit : Q;
  autoSuccessRate : Q
}.

(** The component's state: one field per [useState] that a handler
    writes. *)
Record State := mkState {
  isRunning : bool;
  autoTrading : bool;
  paperTrading : bool;
  minProfit : Q;
  maxTradeAmount : Q;
  maxConsecutiveFails : Z;
  consecutiveFails : Z;
  pausedAutoTrading : bool;
  opportunities : list ArbitrageOpportunity;
  autoTradeLogs : list AutoTradeLog;
  selectedOpportunity : option string;
  autoStats : AutoStats;
  exchanges : list ExchangeConfig
}.

Definition init_exchanges : list ExchangeConfig := [
  mkExchange "binance" "Binance" true false "BNB" 0;
  mkExchange "bybit" "Bybit" false false "BIT" 0;
  mkExchange "kucoin" "KuCoin" false false "KCS" 2;
  mkExchange "coinbasepro" "Coinbase Pro" false false "USDC" 0;
  mkExchange "kraken" "Kraken" false false "USD" 0;
  mkExchange "gateio" "Gate.io" false false "GT" 0;
  mkExchange "coinex" "CoinEx" false false "CET" 0;
  mkExchange "htx" "HTX" false false "HT" 0;
  mkExchange "mexc" "MEXC" false false "MX" 0;
  mkExchange "poloniex" "Poloniex" false false "TRX" 0;
  mkExchange "probit" "ProBit Global" false false "PROB" 0;
  mkExchange "hitbtc" "HitBTC" false false "HIT" 0 ].

(** Initial values of the [useState] calls, lines 462-502. *)
Definition init : State :=
  mkState false false true (1 # 10) 100 3 0 false [] [] None
          (mkAutoStats 0 0 0) init_exchanges.

(** Calls the component makes to [backendAPI]. *)
Inductive BackendCall :=
  | CallStartBot (minProfitPercentage maxTradeAmount : Q)
      (autoTradingMode paperTrading : bool) (selectedExchanges : list string)
  | CallStopBot
  | CallExecuteOpportunity (opportunityId : string).

(** Everything that runs a handler of the component.  The result of an
    awaited backend call is part of the event that resumes the handler.
    The component sets up no timer: nothing else changes its state. *)
Inductive Event :=
  | WsOpportunitiesUpdate (data : list ArbitrageOpportunity)
  | WsOpportunityExecuted (data : ArbitrageOpportunity)
  | WsOther
  | ToggleBot (success : bool)
  | ResumeAutoTrading
  | ExecuteOpportunity (opportunityId : string) (success : bool)
  | SetAutoTrading (checked : bool)
  | SetPaperTrading (checked : bool)
  | SetMinProfit (v : Q)
  | SetMaxTradeAmount (v : Q)
  | SetMaxConsecutiveFails (v : Z)
  | ToggleExchange (exchangeId : string)
  | SelectOpportunity (opportunityId : string).

(** The [setAutoStats] updater, lines 525-531. *)
Definition update_autoStats (prev : AutoStats) (executed : ArbitrageOpportunity)
  : AutoStats :=
  let is_completed := OppStatus_eqb (status executed) completed in
  let trades := autoTradesExecuted prev + 1 in
  let profit := (autoProfit prev + (if is_completed then profitAmount executed else 0))%Q in
  let successCount :=
    (inject_Z (autoTradesExecuted prev) * (autoSuccessRate prev / 100)
     + (if is_completed then 1 else 0))%Q in
  let successRate := (successCount / inject_Z trades * 100)%Q in
  mkAutoStats trades profit successRate.

(** The [setConsecutiveFails] part of the [opportunity_executed] handler,
    lines 533-544: it returns the new
    (consecutiveFails, pausedAutoTrading, autoTrading). *)
Definition circuit_breaker (maxFails fails : Z) (paused auto : bool)
  (executed_status : OppStatus) : Z * bool * bool :=
  match executed_status with
  | failed =>
      let newFails := fails + 1 in
      if maxFails <=? newFails then (newFails, true, false)
      else (newFails, paused, auto)
  | _ => (0, paused, auto)
  end.

(** The [opportunity_executed] WebSocket handler, lines 511-546. *)
Definition on_opportunity_executed (st : State) (executed : ArbitrageOpportunity)
  : State :=
  match status executed with
  | completed | failed =>
      let log := mkLog (id executed) (exchange executed)
                   (profitPercentage executed) (profitAmount executed)
                   (volume executed) (status executed) in
      let '(fails, paused, auto) :=
        circuit_breaker (maxConsecutiveFails st) (consecutiveFails st)
          (pausedAutoTrading st) (autoTrading st) (status executed) in
      mkState (isRunning st) auto (paperTrading st) (minProfit st)
        (maxTradeAmount st) (maxConsecutiveFails st) fails paused
        (opportunities st) (log :: firstn 49 (autoTradeLogs st))
        (selectedOpportunity st) (update_autoStats (autoStats st) executed)
        (exchanges st)
  | _ => st
  end.

(** [setter] helpers for the remaining handlers. *)
Definition set_opportunities (st : State) (l : list ArbitrageOpportunity) :=
  mkState (isRunning st) (autoTrading st) (paperTrading st) (minProfit st)
    (maxTradeAmount st) (maxConsecutiveFails st) (consecutiveFails st)
    (pausedAutoTrading st) l (autoTradeLogs st) (selectedOpportunity st)
    (autoStats st) (exchanges st).

Definition set_running (st : State) (running auto : bool) (ex : list ExchangeConfig) :=
  mkState running auto (paperTrading st) (minProfit st)
    (maxTradeAmount st) (maxConsecutiveFails st) (consecutiveFails st)
    (pausedAutoTrading st) (opportunities st) (autoTradeLogs st)
    (selectedOpportunity st) (autoStats st) ex.

(** [toggleBot], lines 551-572. *)
Definition toggleBot (st : State) (success : bool) : State * list BackendCall :=
  if negb (isRunning st) then
    let call := CallStartBot (minProfit st) (maxTradeAmount st) (autoTrading st)
                  (paperTrading st)
                  (map ex_id (filter enabled (exchanges st))) in
    if success then
      (set_running st true (autoTrading st)
         (map (fun ex => if enabled ex then with_connected ex true else ex)
              (exchanges st)), [call])
    else (st, [call])
  else
    if success then
      (set_running st false false
         (map (fun ex => with_connected ex false) (exchanges st)), [CallStopBot])
    else (st, [CallStopBot]).

(** [resumeAutoTrading], lines 574-578. *)
Definition resumeAutoTrading (st : State) : State :=
  mkState (isRunning st) true (paperTrading st) (minProfit st)
    (maxTradeAmount st) (maxConsecutiveFails st) 0 false
    (opportunities st) (autoTradeLogs st) (selectedOpportunity st)
    (autoStats st) (exchanges st).

(** The [setOpportunities] updater of [executeOpportunity], lines 582-584. *)
Definition mark_executed (prev : list ArbitrageOpportunity) (oid : string)
  (success : bool) : list ArbitrageOpportunity :=
  map (fun opp => if String.eqb (id opp) oid
                  then with_status opp (if success then completed else failed)
                  else opp) prev.

(** [executeOpportunity], lines 580-585: the backend call, then the
    status of the row with that id set from its answer. *)
Definition executeOpportunity (st : State) (oid : string) (success : bool)
  : State * list BackendCall :=
  (set_opportunities st (mark_executed (opportunities st) oid success),
   [CallExecuteOpportunity oid]).

(** One handler run. *)
Definition step (st : State) (ev : Event) : State * list BackendCall :=
  match ev with
  | WsOpportunitiesUpdate data => (set_opportunities st data, [])
  | WsOpportunityExecuted data => (on_opportunity_executed st data, [])
  | WsOther => (st, [])
  | ToggleBot success => toggleBot st success
  | ResumeAutoTrading => (resumeAutoTrading st, [])
  | ExecuteOpportunity oid success => executeOpportunity st oid success
  | SetAutoTrading b =>
      (set_running st (isRunning st) b (exchanges st), [])
  | SetPaperTrading b =>
      (mkState (isRunning st) (autoTrading st) b (minProfit st)
         (maxTradeAmount st) (maxConsecutiveFails st) (consecutiveFails st)
         (pausedAutoTrading st) (opportunities st) (autoTradeLogs st)
         (selectedOpportunity st) (autoStats st) (exchanges st), [])
  | SetMinProfit v =>
      (mkState (isRunning st) (autoTrading st) (paperTrading st) v
         (maxTradeAmount st) (maxConsecutiveFails st) (consecutiveFails st)
         (pausedAutoTrading st) (opportunities st) (autoTradeLogs st)
         (selectedOpportunity st) (autoStats st) (exchanges st), [])
  | SetMaxTradeAmount v =>
      (mkState (isRunning st) (autoTrading st) (paperTrading st) (minProfit st)
         v (maxConsecutiveFails st) (consecutiveFails st)
         (pausedAutoTrading st) (opportunities st) (autoTradeLogs st)
         (selectedOpportunity st) (autoStats st) (exchanges st), [])
  | SetMaxConsecutiveFails v =>
      (mkState (isRunning st) (autoTrading st) (paperTrading st) (minProfit st)
         (maxTradeAmount st) v (consecutiveFails st)
         (pausedAutoTrading st) (opportunities st) (autoTradeLogs st)
         (selectedOpportunity st) (autoStats st) (exchanges st), [])
  | ToggleExchange eid =>
      (set_running st (isRunning st) (autoTrading st)
         (map (fun e => if String.eqb (ex_id e) eid then toggle_enabled e else e)
              (exchanges st)), [])
  | SelectOpportunity oid =>
      (mkState (isRunning st) (autoTrading st) (paperTrading st) (minProfit st)
         (maxTradeAmount st) (maxConsecutiveFails st) (consecutiveFails st)
         (pausedAutoTrading st) (opportunities st) (autoTradeLogs st)
         (Some oid) (autoStats st) (exchanges st), [])
  end.

(** A run of handlers. *)
Fixpoint run (st : State) (evs : list Event) : State :=
  match evs with
  | [] => st
  | ev :: rest => run (fst (step st ev)) rest
  end.

Definition reachable (st : State) : Prop := exists evs, st = run init evs.

(** The backend calls a run of handlers makes, in order. *)
Fixpoint run_calls (st : State) (evs : list Event) : list BackendCall :=
  match evs with
  | [] => []
  | ev :: rest => snd (step st ev) ++ run_calls (fst (step st ev)) rest
  end.

End LiveDashboard.

(** ** The simulated dashboard (first component of ArbitrageBotDashboard.tsx) *)
Module SimDashboard.

Record Stats := mkStats {
  opportunitiesFound : Z;
  tradesExecuted : Z;
  totalProfit : Q;
  successRate : Q;
  activeExchanges : Z
}.

Record State := mkState {
  isRunning : bool;
  autoTrading : bool;
  paperTrading : bool;
  opportunities : list ArbitrageOpportunity;
  selectedOpportunity : option string;
  minProfit : Q;
  maxTradeAmount : Q;
  stats : Stats;
  exchanges : list ExchangeConfig
}.

Definition init_exchanges : list ExchangeConfig := [
  mkExchange "binance" "Binance" true false "BNB" 0;
  mkExchange "bybit" "Bybit" false false "BIT" 0;
  mkExchange "kucoin" "KuCoin" false false "KCS" 2;
  mkExchange "coinbase" "Coinbase Pro" false false "" 0;
  mkExchange "kraken" "Kraken" false false "" 0;
  mkExchange "gate" "Gate.io" false false "GT" 0;
  mkExchange "coinex" "CoinEx" false false "CET" 0;
  mkExchange "htx" "HTX" false false "HT" 0;
  mkExchange "mexc" "MEXC" false false "MX" 0;
  mkExchange "poloniex" "Poloniex" false false "" 0;
  mkExchange "probit" "ProBit" false false "PROB" 0;
  mkExchange "hitbtc" "HitBTC" false false "" 0 ].

(** Initial values of the [useState] calls, lines 38-71. *)
Definition init : State :=
  mkState false false true [] None (1 # 10) 100 (mkStats 0 0 0 0 0)
          init_exchanges.

(** Everything that runs a handler or a timer callback of the component.
    [Tick] is the [setInterval] callback of lines 77-96 with the three
    Math.random() results it draws and the [Date.now()] it reads.
    [ExecuteTimeout] is the [setTimeout] callback of lines 127-143; it
    reads the [opportunities] array of the render in which Execute was
    clicked, passed as [captured]. *)
Inductive Event :=
  | Tick (rand1 rand2 rand3 : Q) (now : string)
  | ToggleBot
  | ToggleExchange (exchangeId : string)
  | ExecuteClick (opportunityId : string)
  | ExecuteTimeout (opportunityId : string) (rand : Q)
      (captured : list ArbitrageOpportunity)
  | SetAutoTrading (checked : bool)
  | SetPaperTrading (checked : bool)
  | SetMinProfit (v : Q)
  | SetMaxTradeAmount (v : Q)
  | SelectOpportunity (opportunityId : string).

Definition set_opportunities (st : State) (l : list ArbitrageOpportunity) :=
  mkState (isRunning st) (autoTrading st) (paperTrading st) l
    (selectedOpportunity st) (minProfit st) (maxTradeAmount st) (stats st)
    (exchanges st).

(** [exchanges.find(e => e.enabled)?.name || 'Binance'] *)
Definition first_enabled_name (exs : list ExchangeConfig) : string :=
  match find enabled exs with
  | Some e => if String.eqb (ex_name e) "" then "Binance" else ex_name e
  | None => "Binance"
  end.

(** The interval callback, lines 77-95. *)
Definition tick (st : State) (rand1 rand2 rand3 : Q) (now : string) : State :=
  let newOpportunity :=
    mkOpp ("opp_" ++ now) (first_enabled_name (exchanges st))
      "USDT -> BTC -> ETH -> USDT"
      (rand1 * (1 # 2) + (5 # 100))%Q
      (rand2 * 10 + 1)%Q
      (rand3 * 1000 + 100)%Q
      detected in
  let prev := stats st in
  mkState (isRunning st) (autoTrading st) (paperTrading st)
    (newOpportunity :: firstn 49 (opportunities st))
    (selectedOpportunity st) (minProfit st) (maxTradeAmount st)
    (mkStats (opportunitiesFound prev + 1) (tradesExecuted prev)
       (totalProfit prev) (successRate prev)
       (Z.of_nat (length (filter enabled (exchanges st)))))
    (exchanges st).

(** [toggleBot], lines 101-111. *)
Definition toggleBot (st : State) : State :=
  mkState (negb (isRunning st)) (autoTrading st) (paperTrading st)
    (opportunities st) (selectedOpportunity st) (minProfit st)
    (maxTradeAmount st) (stats st)
    (if negb (isRunning st)
     then map (fun ex => if enabled ex then with_connected ex true else ex)
              (exchanges st)
     else map (fun ex => with_connected ex false) (exchanges st)).

Definition set_status_of (prev : list ArbitrageOpportunity) (oid : string)
  (s : OppStatus) : list ArbitrageOpportunity :=
  map (fun opp => if String.eqb (id opp) oid then with_status opp s else opp) prev.

(** [opportunities.find(o => o.id === opportunityId)?.profitAmount || 0] *)
Definition captured_profit (captured : list ArbitrageOpportunity) (oid : string) : Q :=
  match find (fun o => String.eqb (id o) oid) captured with
  | Some o => profitAmount o
  | None => 0%Q
  end.

(** The timeout callback of [executeOpportunity], lines 127-143:
    [success = Math.random() > 0.1]. *)
Definition execute_timeout (st : State) (oid : string) (rand : Q)
  (captured : list ArbitrageOpportunity) : State :=
  let success := negb (Qle_bool rand (1 # 10)) in
  let opps := set_status_of (opportunities st) oid
                (if success then completed else failed) in
  let prev := stats st in
  let stats' :=
    if success then
      mkStats (opportunitiesFound prev) (tradesExecuted prev + 1)
        (totalProfit prev + captured_profit captured oid)%Q
        ((inject_Z (tradesExecuted prev + 1) / inject_Z (tradesExecuted prev + 1)) * 100)%Q
        (activeExchanges prev)
    else prev in
  mkState (isRunning st) (autoTrading st) (paperTrading st) opps
    (selectedOpportunity st) (minProfit st) (maxTradeAmount st) stats'
    (exchanges st).

Definition step (st : State) (ev : Event) : State :=
  match ev with
  | Tick r1 r2 r3 now => tick st r1 r2 r3 now
  | ToggleBot => toggleBot st
  | ToggleExchange eid =>
      mkState (isRunning st) (autoTrading st) (paperTrading st)
        (opportunities st) (selectedOpportunity st) (minProfit st)
        (maxTradeAmount st) (stats st)
        (map (fun ex => if String.eqb (ex_id ex) eid then toggle_enabled ex else ex)
             (exchanges st))
  | ExecuteClick oid => set_opportunities st (set_status_of (opportunities st) oid executing)
  | ExecuteTimeout oid rand captured => execute_timeout st oid rand captured
  | SetAutoTrading b =>
      mkState (isRunning st) b (paperTrading st) (opportunities st)
        (selectedOpportunity st) (minProfit st) (maxTradeAmount st) (stats st)
        (exchanges st)
  | SetPaperTrading b =>
      mkState (isRunning st) (autoTrading st) b (opportunities st)
        (selectedOpportunity st) (minProfit st) (maxTradeAmount st) (stats st)
        (exchanges st)
  | SetMinProfit v =>
      mkState (isRunning st) (autoTrading st) (paperTrading st) (opportunities st)
        (selectedOpportunity st) v (maxTradeAmount st) (stats st) (exchanges st)
  | SetMaxTradeAmount v =>
      mkState (isRunning st) (autoTrading st) (paperTrading st) (opportunities st)
        (selectedOpportunity st) (minProfit st) v (stats st) (exchanges st)
  | SelectOpportunity oid =>
      mkState (isRunning st) (autoTrading st) (paperTrading st) (opportunities st)
        (Some oid) (minProfit st) (maxTradeAmount st) (stats st) (exchanges st)
  end.

(** Math.random() returns a number in [0, 1). *)
Definition random_ok (r : Q) : Prop := (0 <= r /\ r < 1)%Q.

(** When an event can happen: the interval exists only while the bot is
    running; the random draws are in range.  The execute timeout is
    allowed at any time, which covers every real schedule of it. *)
Definition can_happen (st : State) (ev : Event) : Prop :=
  match ev with
  | Tick r1 r2 r3 _ => isRunning st = true /\ random_ok r1 /\ random_ok r2 /\ random_ok r3
  | ExecuteTimeout _ r _ => random_ok r
  | _ => True
  end.

Inductive reachable : State -> Prop :=
  | reach_init : reachable init
  | reach_step st ev : reachable st -> can_happen st ev -> reachable (step st ev).

End SimDashboard.

(** ** The backend client (src/src/api/backend.ts, class BackendAPI) *)
Module BackendAPI.

Local Set Warnings "-register-all".

(** JSON values, the results of [response.json()]. *)
Inductive Json :=
  | JNull
  | JBool (b : bool)
  | JNum (q : Q)
  | JStr (s : string)
  | JArr (items : list Json)
  | JObj (fields : list (string * Json)).

(** What [fetch] can do: reject (network failure, CORS, refused
    connection), or resolve with a response whose [ok] flag is set for
    2xx statuses and whose body parses to a JSON value or not ([None]:
    [response.json()] rejects). *)
Inductive FetchOutcome :=
  | NetworkError
  | HttpResponse (ok : bool) (body : option Json).

(** A thrown exception or a returned value: the settled state of an
    awaited promise. *)
Inductive Exc (A : Type) :=
  | Ret (a : A)
  | Throw.
Arguments Ret {A} a.
Arguments Throw {A}.

Definition bind {A B} (m : Exc A) (k : A -> Exc B) : Exc B :=
  match m with Ret a => k a | Throw => Throw end.

(** [try { body } catch (error) { handler }] *)
Definition try_catch {A} (body : Exc A) (handler : Exc A) : Exc A :=
  match body with Ret a => Ret a | Throw => handler end.

Notation "x <- m ;; k" := (bind m (fun x => k))
  (at level 61, m at next level, right associativity).

Record Response := mkResponse { ok : bool; body : option Json }.

(** [await fetch(...)] *)
Definition fetch (o : FetchOutcome) : Exc Response :=
  match o with
  | NetworkError => Throw
  | HttpResponse ok body => Ret (mkResponse ok body)
  end.

(** [await response.json()] *)
Definition json (r : Response) : Exc Json :=
  match body r with Some j => Ret j | None => Throw end.

(** [console.error] returns undefined and never throws. *)

(** The POST methods: [startBot], [stopBot], [executeOpportunity],
    [toggleAutoTrading] share the body
    [try { const response = await fetch(...); return response.ok; }
     catch (error) { console.error(...); return false; }].
    The request URL and body ([JSON.stringify] of a plain record of
    numbers, booleans and strings) are built inside the [try]. *)
Definition post_ok (o : FetchOutcome) : Exc bool :=
  try_catch (response <- fetch o ;; Ret (ok response)) (Ret false).

Record BotConfig := mkBotConfig {
  minProfitPercentage : Q;
  maxTradeAmount : Q;
  autoTradingMode : bool;
  paperTrading : bool;
  selectedExchanges : list string
}.

Definition startBot (config : BotConfig) (o : FetchOutcome) : Exc bool := post_ok o.
Definition stopBot (o : FetchOutcome) : Exc bool := post_ok o.
Definition executeOpportunity (opportunityId : string) (o : FetchOutcome) : Exc bool :=
  post_ok o.
Definition toggleAutoTrading (autoTrading : bool) (o : FetchOutcome) : Exc bool :=
  post_ok o.

(** The GET methods: [getOpportunities] and [getTrades] return [[]] on
    error, [getTradeStats] and [getStats] return [null]:
    [try { const response = await fetch(...);
           if (response.ok) { return await response.json(); }
           return fallback; }
     catch (error) { console.error(...); return fallback; }]. *)
Definition get_json (fallback : Json) (o : FetchOutcome) : Exc Json :=
  try_catch
    (response <- fetch o ;;
     if ok response then json response else Ret fallback)
    (Ret fallback).

Definition getOpportunities (o : FetchOutcome) : Exc Json := get_json (JArr []) o.
Definition getTrades (o : FetchOutcome) : Exc Json := get_json (JArr []) o.
Definition getTradeStats (o : FetchOutcome) : Exc Json := get_json JNull o.
Definition getStats (o : FetchOutcome) : Exc Json := get_json JNull o.

(** A transport error: the fetch rejects, the status is not 2xx, or the
    body does not parse. *)
Definition is_error (o : FetchOutcome) : bool :=
  match o with
  | NetworkError => true
  | HttpResponse false _ => true
  | HttpResponse true None => true
  | HttpResponse true (Some _) => false
  end.

End BackendAPI.

(** ** Cycle detection *)
Module Detector.

(** Modelled from the spec: the cycle detector of the Python backend
    (core/multi_exchange_detector.py in the repository layout, not part of
    the sources at hand), after spec section 4.1.  A snapshot holds, per
    trading pair, the best bid and ask, the effective taker fee rate
    (fee-token discount already applied) and the age of the quote.  A leg
    that buys the pair's base asset pays the ask (rate 1/ask); a leg that
    sells the base asset receives the bid (rate bid), as in the worked
    scenario of spec section 8; each leg is net of its fee rate.  A pair
    whose book is crossed (bid >= ask) or older than the staleness bound
    is unusable. *)
Record PairQuote := mkPairQuote {
  base : string;
  quote : string;
  bid : Q;
  ask : Q;
  fee : Q;
  age : Z
}.

Definition usable (staleness : Z) (p : PairQuote) : bool :=
  negb (Qle_bool (ask p) (bid p)) && (age p <=? staleness).

Definition find_pair (snapshot : list PairQuote) (b q : string) : option PairQuote :=
  find (fun p => String.eqb (base p) b && String.eqb (quote p) q) snapshot.

(** Convert [amount] of [src] into [dst] over the pair connecting them,
    directly (buying [dst] quoted in [src]) or inverted (selling [src]
    quoted in [dst]). *)
Definition convert (snapshot : list PairQuote) (staleness : Z)
  (src dst : string) (amount : Q) : option Q :=
  match find_pair snapshot dst src with
  | Some p =>
      if usable staleness p then Some (amount / ask p * (1 - fee p))%Q else None
  | None =>
      match find_pair snapshot src dst with
      | Some p =>
          if usable staleness p then Some (amount * bid p * (1 - fee p))%Q else None
      | None => None
      end
  end.

Definition obind {A B} (m : option A) (k : A -> option B) : option B :=
  match m with Some a => k a | None => None end.

(** One unit of [a] taken round the cycle a -> b -> c -> a. *)
Definition cycle_final (snapshot : list PairQuote) (staleness : Z)
  (a b c : string) : option Q :=
  obind (convert snapshot staleness a b 1) (fun x1 =>
  obind (convert snapshot staleness b c x1) (fun x2 =>
  convert snapshot staleness c a x2)).

(** Every ordered triple of distinct assets. *)
Definition triples (assets : list string) : list (string * string * string) :=
  flat_map (fun a =>
    flat_map (fun b =>
      flat_map (fun c =>
        if String.eqb a b || String.eqb b c || String.eqb a c then []
        else [(a, b, c)]) assets) assets) assets.

(** A candidate opportunity for every triple of positive net yield
    [final - 1]; the others are dropped. *)
Definition detect (exchange_name : string) (notional : Q)
  (snapshot : list PairQuote) (staleness : Z) (assets : list string)
  : list ArbitrageOpportunity :=
  flat_map (fun '(a, b, c) =>
    match cycle_final snapshot staleness a b c with
    | Some final =>
        if Qle_bool final 1 then []
        else
          let path := (a ++ " -> " ++ b ++ " -> " ++ c ++ " -> " ++ a)%string in
          [mkOpp (exchange_name ++ ":" ++ path)%string exchange_name path
             ((final - 1) * 100)%Q (notional * (final - 1))%Q notional detected]
    | None => []
    end) (triples assets).

(** The snapshot of the spec's scenario, zero fees: each quoted price is
    the side the cycle USDT -> BTC -> ETH -> USDT trades at (ask of
    BTC/USDT and ETH/BTC, bid of ETH/USDT), with the other side one tick
    away so no book is crossed. *)
Definition scenario : list PairQuote := [
  mkPairQuote "BTC" "USDT" 49999 50000 0 0;
  mkPairQuote "ETH" "BTC" (584 # 10000) (585 # 10000) 0 0;
  mkPairQuote "ETH" "USDT" 3000 3001 0 0 ].

End Detector.

(** ** The WebSocket connection of [BackendAPI] (backend.ts lines 200-254) *)
Module WsConnection.

(** [this.ws], as the number of the socket it holds; the number the next
    [new WebSocket] gets; and the reconnect timers set by [onclose]
    callbacks that have not fired yet. *)
Record State := mkState {
  ws : option nat;
  next_socket : nat;
  pending_reconnects : nat
}.

Definition init : State := mkState None 0 0.

Inductive Event :=
  | Connect              (** a call of [connectWebSocket] *)
  | Disconnect           (** a call of [disconnectWebSocket] *)
  | SocketClosed (s : nat)  (** the [onclose] callback of socket [s] runs *)
  | ReconnectTimer.      (** a 5-second reconnect timer fires *)

(** [connectWebSocket]: [this.ws = new WebSocket(...)] and its callbacks. *)
Definition connectWebSocket (st : State) : State :=
  mkState (Some (next_socket st)) (S (next_socket st)) (pending_reconnects st).

(** [disconnectWebSocket]: [if (this.ws) { this.ws.close(); this.ws = null; }].
    The socket's [onclose] runs later, as a [SocketClosed] event. *)
Definition disconnectWebSocket (st : State) : State :=
  match ws st with
  | Some _ => mkState None (next_socket st) (pending_reconnects st)
  | None => st
  end.

(** [onclose]: [setTimeout(() => this.connectWebSocket(onMessage), 5000)],
    whatever socket closed and whoever closed it. *)
Definition onclose (st : State) : State :=
  mkState (ws st) (next_socket st) (S (pending_reconnects st)).

Definition step (st : State) (ev : Event) : State :=
  match ev with
  | Connect => connectWebSocket st
  | Disconnect => disconnectWebSocket st
  | SocketClosed _ => onclose st
  | ReconnectTimer =>
      match pending_reconnects st with
      | 0%nat => st
      | S n => connectWebSocket (mkState (ws st) (next_socket st) n)
      end
  end.

Fixpoint run (st : State) (evs : list Event) : State :=
  match evs with
  | [] => st
  | ev :: rest => run (step st ev) rest
  end.

End WsConnection.

(** ** The live dashboard together with its WebSocket subscription *)
Module LiveSession.
Module LD := LiveDashboard.

(** The messages the server sends on a socket, as the callback of lines
    506-547 tells them apart by [data.type]. *)
Inductive Message :=
  | MsgOpportunitiesUpdate (data : list ArbitrageOpportunity)
  | MsgOpportunityExecuted (data : ArbitrageOpportunity)
  | MsgOther.

Definition with_max (st : LD.State) (m : Z) : LD.State :=
  LD.mkState (LD.isRunning st) (LD.autoTrading st) (LD.paperTrading st)
    (LD.minProfit st) (LD.maxTradeAmount st) m (LD.consecutiveFails st)
    (LD.pausedAutoTrading st) (LD.opportunities st) (LD.autoTradeLogs st)
    (LD.selectedOpportunity st) (LD.autoStats st) (LD.exchanges st).

(** The callback passed to [backendAPI.connectWebSocket] by the effect of
    lines 504-549, as created in a render where [maxConsecutiveFails] was
    [m].  The closure reads the threshold it captured; everything else it
    writes goes through the updaters [prev => ...] and [f => ...] or is an
    absolute set, so it acts on the current state. *)
Definition handler (m : Z) (st : LD.State) (msg : Message) : LD.State :=
  match msg with
  | MsgOpportunitiesUpdate data => LD.set_opportunities st data
  | MsgOpportunityExecuted data =>
      with_max (LD.on_opportunity_executed (with_max st m) data)
        (LD.maxConsecutiveFails st)
  | MsgOther => st
  end.

(** The component's state and the client's sockets.  A socket is known by
    its number and carries the threshold of the callback it was opened
    with.  [open_sockets]: sockets that deliver messages; [ws]: the one
    [backendAPI.ws] holds; [closing]: sockets closed by [ws.close()] whose
    [onclose] has not run yet; [timers]: reconnect timers set by [onclose]
    (backend.ts line 238), each with the callback it reconnects with. *)
Record Session := mkSession {
  dash : LD.State;
  open_sockets : list (nat * Z);
  ws : option nat;
  next_socket : nat;
  closing : list Z;
  timers : list Z
}.

Definition init : Session := mkSession LD.init [] None 0 [] [].

(** [connectWebSocket(onMessage)]: [this.ws = new WebSocket(...)]; the
    socket it held before is not closed. *)
Definition connect (m : Z) (s : Session) : Session :=
  mkSession (dash s) (open_sockets s ++ [(next_socket s, m)])
    (Some (next_socket s)) (S (next_socket s)) (closing s) (timers s).

(** [disconnectWebSocket]: [if (this.ws) { this.ws.close(); this.ws = null; }].
    The closed socket stops delivering; its [onclose] runs later. *)
Definition disconnect (s : Session) : Session :=
  match ws s with
  | Some n =>
      match find (fun p => Nat.eqb (fst p) n) (open_sockets s) with
      | Some (_, m) =>
          mkSession (dash s) (filter (fun p => negb (Nat.eqb (fst p) n)) (open_sockets s))
            None (next_socket s) (closing s ++ [m]) (timers s)
      | None => mkSession (dash s) (open_sockets s) None (next_socket s) (closing s) (timers s)
      end
  | None => s
  end.

Definition set_dash (s : Session) (d : LD.State) : Session :=
  mkSession d (open_sockets s) (ws s) (next_socket s) (closing s) (timers s).

Inductive Event :=
  | Mount                  (** the effect runs after the first render *)
  | Ui (ev : LD.Event)     (** a handler of the component *)
  | Server (msg : Message) (** the server sends a message on every open socket *)
  | OnClose                (** the oldest pending [onclose] runs *)
  | TimerFires.            (** the oldest pending reconnect timer fires *)

(** A handler run; when it changes [maxConsecutiveFails], React re-renders
    and re-runs the effect: cleanup [disconnectWebSocket], then
    [connectWebSocket] with the new render's callback. *)
Definition step (s : Session) (ev : Event) : Session :=
  match ev with
  | Mount => connect (LD.maxConsecutiveFails (dash s)) s
  | Ui e =>
      let d := fst (LD.step (dash s) e) in
      if Z.eqb (LD.maxConsecutiveFails d) (LD.maxConsecutiveFails (dash s))
      then set_dash s d
      else connect (LD.maxConsecutiveFails d) (disconnect (set_dash s d))
  | Server msg =>
      set_dash s (fold_left (fun st p => handler (snd p) st msg) (open_sockets s) (dash s))
  | OnClose =>
      match closing s with
      | m :: rest => mkSession (dash s) (open_sockets s) (ws s) (next_socket s) rest (timers s ++ [m])
      | [] => s
      end
  | TimerFires =>
      match timers s with
      | m :: rest =>
          connect m (mkSession (dash s) (open_sockets s) (ws s) (next_socket s) (closing s) rest)
      | [] => s
      end
  end.

Fixpoint run (s : Session) (evs : list Event) : Session :=
  match evs with
  | [] => s
  | ev :: rest => run (step s ev) rest
  end.

End LiveSession.

(** ** Concrete states and messages used to exercise the properties *)
Module Demo.
Import LiveDashboard.

Definition opp (oid : string) (pct : Q) (s : OppStatus) : ArbitrageOpportunity :=
  mkOpp oid "Binance" "USDT -> BTC -> ETH -> USDT" pct 5 500 s.

(** Running, auto-trading on, two consecutive failures, threshold 3. *)
Definition two_fails : State :=
  mkState true true true (1 # 10) 100 3 2 false
    [opp "opp_1" (3 # 10) detected] [] None (mkAutoStats 0 0 0) init_exchanges.

(** The same after the breaker tripped. *)
Definition paused : State :=
  mkState true false true (1 # 10) 100 3 3 true
    [opp "opp_1" (3 # 10) detected] [] None (mkAutoStats 0 0 0) init_exchanges.

(** One opportunity row in status [executing]. *)
Definition executing_row : State :=
  mkState true true true (1 # 10) 100 3 0 false
    [opp "opp_1" (3 # 10) executing] [] None (mkAutoStats 0 0 0) init_exchanges.

(** A backend [opportunities_update] payload of 51 entries. *)
Definition many_opps : list ArbitrageOpportunity :=
  map (fun n => opp ("opp_" ++ String (Ascii.ascii_of_nat (48 + n)) "") (3 # 10) detected)
      (seq 0 51).

(** The simulated dashboard after Start and one interval tick. *)
Definition sim_one_tick : SimDashboard.State :=
  SimDashboard.step (SimDashboard.step SimDashboard.init SimDashboard.ToggleBot)
    (SimDashboard.Tick 0 0 0 "1").

(** A failed completion message from the server. *)
Definition fail_msg : LiveSession.Message :=
  LiveSession.MsgOpportunityExecuted (opp "opp_2" 0 failed).

(** Mount with the default threshold 3, the operator sets it to 5 (effect
    cleanup and re-subscription), the closed socket's [onclose] runs and
    its 5-second reconnect timer fires; then the server reports one failed
    trade. *)
Definition threshold_change_run : list LiveSession.Event :=
  [LiveSession.Mount; LiveSession.Ui (LiveDashboard.SetMaxConsecutiveFails 5);
   LiveSession.OnClose; LiveSession.TimerFires; LiveSession.Server fail_msg].

(** Auto-trading switched on, the bot started (backend answers true), then
    three failed completion messages with the default threshold 3. *)
Definition auto_pause_run : list LiveDashboard.Event :=
  [LiveDashboard.SetAutoTrading true; LiveDashboard.ToggleBot true;
   LiveDashboard.WsOpportunityExecuted (opp "opp_2" 0 failed);
   LiveDashboard.WsOpportunityExecuted (opp "opp_3" 0 failed);
   LiveDashboard.WsOpportunityExecuted (opp "opp_4" 0 failed)].

End Demo.

(** Reachable states of the live dashboard: a stopped bot has no exchange
    marked connected, and the exchange list keeps its ids and order. *)
Definition exchanges_inv (running : bool) (exs : list ExchangeConfig) : Prop :=
  (running = false -> Forall (fun e => connected e = false) exs) /\
  map ex_id exs = map ex_id LiveDashboard.init_exchanges.

(** * Properties *)

Lemma OppStatus_eqb_spec a b : OppStatus_eqb a b = true <-> a = b.
Proof. destruct a, b; simpl; split; congruence. Qed.

Section LiveCircuitBreaker.
Import LiveDashboard.

(** No completion message clears a set paused flag. *)
Lemma on_opportunity_executed_keeps_paused st o :
  pausedAutoTrading st = true ->
  pausedAutoTrading (on_opportunity_executed st o) = true.
Proof.
  intros Hp. unfold on_opportunity_executed, circuit_breaker.
  destruct (status o); try exact Hp.
  destruct (maxConsecutiveFails st <=? consecutiveFails st + 1);
    [reflexivity | exact Hp].
Qed.

(** Every handler other than [resumeAutoTrading] keeps a set paused flag. *)
Lemma step_keeps_paused st ev :
  pausedAutoTrading st = true -> ev <> ResumeAutoTrading ->
  pausedAutoTrading (fst (step st ev)) = true.
Proof.
  intros Hp Hev.
  destruct ev; simpl; try exact Hp.
  - apply on_opportunity_executed_keeps_paused; exact Hp.
  - unfold toggleBot. destruct (negb (isRunning st)), success; exact Hp.
  - congruence.
Qed.

Lemma run_keeps_paused st evs :
  pausedAutoTrading st = true ->
  Forall (fun ev => ev <> ResumeAutoTrading) evs ->
  pausedAutoTrading (run st evs) = true.
Proof.
  revert st. induction evs as [| ev evs IH]; intros st Hp Hevs; simpl.
  - exact Hp.
  - inversion Hevs as [| ? ? Hev Hrest]; subst.
    apply IH; [apply step_keeps_paused |]; assumption.
Qed.

Lemma mark_executed_in (l : list ArbitrageOpportunity) (o : ArbitrageOpportunity) (b : bool) :
  In o l -> In (with_status o (if b then completed else failed))
              (mark_executed l (id o) b).
Proof.
  intros Hin. unfold mark_executed.
  apply in_map_iff. exists o. split; [| exact Hin].
  rewrite String.eqb_refl. reflexivity.
Qed.

(** One run of the [opportunity_executed] handler with the state's own
    threshold: while the breaker is not paused, a completion message
    resets the consecutive-failure counter on success and increments it on failure;
    the paused flag becomes true in that step iff the incremented counter
    reaches [maxConsecutiveFails]. *)
Theorem breaker_counter_and_pause (st : State) (o : ArbitrageOpportunity)
  (Hactive : pausedAutoTrading st = false)
  (Hdone : status o = completed \/ status o = failed) :
  let st' := fst (step st (WsOpportunityExecuted o)) in
  (status o = completed ->
     consecutiveFails st' = 0 /\ pausedAutoTrading st' = false) /\
  (status o = failed ->
     consecutiveFails st' = consecutiveFails st + 1 /\
     (pausedAutoTrading st' = true <->
      maxConsecutiveFails st <= consecutiveFails st + 1)).
Proof.
  simpl. unfold on_opportunity_executed.
  destruct Hdone as [Hs | Hs]; rewrite Hs; split; intros H; try discriminate H.
  - simpl. split; [reflexivity | exact Hactive].
  - unfold circuit_breaker.
    destruct (Z.leb_spec (maxConsecutiveFails st) (consecutiveFails st + 1)) as [Hle | Hlt];
      simpl; split; try reflexivity.
    + split; [intros _; exact Hle | reflexivity].
    + rewrite Hactive. split; [discriminate | lia].
Qed.

Lemma breaker_counter_and_pause_witness :
  pausedAutoTrading Demo.two_fails = false /\
  status (Demo.opp "opp_2" 0 failed) = failed /\
  consecutiveFails (fst (step Demo.two_fails
                           (WsOpportunityExecuted (Demo.opp "opp_2" 0 failed)))) = 3 /\
  pausedAutoTrading (fst (step Demo.two_fails
                           (WsOpportunityExecuted (Demo.opp "opp_2" 0 failed)))) = true.
Proof.
  pose proof (breaker_counter_and_pause Demo.two_fails (Demo.opp "opp_2" 0 failed)
                eq_refl (or_intror eq_refl)) as [_ H].
  destruct (H eq_refl) as [Hc Hp].
  split; [reflexivity | split; [reflexivity | split]].
  - exact Hc.
  - apply Hp. simpl. lia.
Defined.

(** C2: once the paused flag is set, no run of handlers that does not
    contain the Resume action clears it (the component has no timer, and
    completion messages of either outcome keep it); Resume sets the counter
    to zero and the paused flag to false in one step. *)
Theorem paused_cleared_only_by_resume :
  (forall st evs,
     pausedAutoTrading st = true ->
     Forall (fun ev => ev <> ResumeAutoTrading) evs ->
     pausedAutoTrading (run st evs) = true) /\
  (forall st,
     let st' := fst (step st ResumeAutoTrading) in
     consecutiveFails st' = 0 /\ pausedAutoTrading st' = false).
Proof.
  split.
  - exact run_keeps_paused.
  - intros st. split; reflexivity.
Qed.

Lemma paused_cleared_only_by_resume_witness :
  pausedAutoTrading Demo.paused = true /\
  Forall (fun ev => ev <> ResumeAutoTrading)
    [WsOpportunityExecuted (Demo.opp "opp_2" 0 completed)] /\
  pausedAutoTrading
    (run Demo.paused [WsOpportunityExecuted (Demo.opp "opp_2" 0 completed)]) = true.
Proof.
  assert (Hp : pausedAutoTrading Demo.paused = true) by reflexivity.
  assert (Hf : Forall (fun ev => ev <> ResumeAutoTrading)
                 [WsOpportunityExecuted (Demo.opp "opp_2" 0 completed)])
    by (repeat constructor; discriminate).
  split; [exact Hp | split; [exact Hf |]].
  exact (proj1 paused_cleared_only_by_resume _ _ Hp Hf).
Defined.

(** While paused, the Execute button of a [detected] row is shown and
    the manual execute handler sends the request and records its outcome,
    without reading the paused flag; the completion message that trips the
    breaker also switches the dashboard's auto-trading mode off. *)
Theorem manual_execute_while_paused :
  (forall st o b,
     pausedAutoTrading st = true ->
     In o (opportunities st) -> status o = detected ->
     execute_button_visible o = true /\
     snd (step st (ExecuteOpportunity (id o) b)) = [CallExecuteOpportunity (id o)] /\
     opportunities (fst (step st (ExecuteOpportunity (id o) b)))
       = mark_executed (opportunities st) (id o) b /\
     In (with_status o (if b then completed else failed))
        (opportunities (fst (step st (ExecuteOpportunity (id o) b))))) /\
  (forall st o,
     status o = failed ->
     maxConsecutiveFails st <= consecutiveFails st + 1 ->
     let st' := fst (step st (WsOpportunityExecuted o)) in
     pausedAutoTrading st' = true /\ autoTrading st' = false).
Proof.
  split.
  - intros st o b _ Hin Hd.
    split; [unfold execute_button_visible; rewrite Hd; reflexivity |].
    split; [reflexivity |]. split; [reflexivity |].
    apply mark_executed_in; exact Hin.
  - intros st o Hs Hle. simpl. unfold on_opportunity_executed, circuit_breaker.
    rewrite Hs. apply Z.leb_le in Hle. rewrite Hle. split; reflexivity.
Qed.

Lemma manual_execute_while_paused_witness :
  pausedAutoTrading Demo.paused = true /\
  In (Demo.opp "opp_1" (3 # 10) detected) (opportunities Demo.paused) /\
  snd (step Demo.paused (ExecuteOpportunity "opp_1" true))
    = [CallExecuteOpportunity "opp_1"] /\
  autoTrading (fst (step Demo.two_fails
                      (WsOpportunityExecuted (Demo.opp "opp_2" 0 failed)))) = false.
Proof.
  assert (Hin : In (Demo.opp "opp_1" (3 # 10) detected) (opportunities Demo.paused))
    by (left; reflexivity).
  split; [reflexivity | split; [exact Hin | split]].
  - exact (proj1 (proj2 (proj1 manual_execute_while_paused Demo.paused _ true
                           eq_refl Hin eq_refl))).
  - refine (proj2 (proj2 manual_execute_while_paused Demo.two_fails
                     (Demo.opp "opp_2" 0 failed) eq_refl _)).
    simpl. lia.
Defined.

End LiveCircuitBreaker.

Lemma Forall_firstn_keep {A} (P : A -> Prop) n (l : list A) :
  Forall P l -> Forall P (firstn n l).
Proof.
  revert l. induction n as [| n IH]; intros l Hl; simpl; [constructor |].
  destruct l as [| x l]; [constructor |].
  inversion Hl; subst. constructor; auto.
Qed.

Section SimProperties.
Import SimDashboard.

Lemma set_status_of_profit l oid s :
  map profitPercentage (set_status_of l oid s) = map profitPercentage l.
Proof.
  induction l as [| o l IH]; simpl; [reflexivity |].
  rewrite IH. destruct (String.eqb (id o) oid); reflexivity.
Qed.

Lemma Forall_set_status_of (P : Q -> Prop) l oid s :
  Forall (fun o => P (profitPercentage o)) l ->
  Forall (fun o => P (profitPercentage o)) (set_status_of l oid s).
Proof.
  intros H. induction H as [| o l Ho _ IH]; simpl; [constructor |].
  constructor; [| exact IH].
  destruct (String.eqb (id o) oid); exact Ho.
Qed.

Lemma length_set_status_of l oid s :
  length (set_status_of l oid s) = length l.
Proof. unfold set_status_of. apply length_map. Qed.

Lemma step_profit_positive st ev :
  Forall (fun o => 0 < profitPercentage o)%Q (opportunities st) ->
  can_happen st ev ->
  Forall (fun o => 0 < profitPercentage o)%Q (opportunities (step st ev)).
Proof.
  intros Hall Hev. destruct ev; cbn -[firstn] in *; try exact Hall.
  - destruct Hev as (_ & [H0 _] & _). constructor.
    + simpl. lra.
    + apply Forall_firstn_keep; exact Hall.
  - apply Forall_set_status_of; exact Hall.
  - unfold execute_timeout. simpl. apply Forall_set_status_of; exact Hall.
Qed.

(** C4: every opportunity in the simulated dashboard's list, in every
    reachable state, has a strictly positive profit percentage: the only
    producer draws it in [0.05, 0.55) and no handler changes it. *)
Theorem surfaced_opportunities_profitable (st : State) :
  reachable st ->
  Forall (fun o => 0 < profitPercentage o)%Q (opportunities st).
Proof.
  intros R. induction R as [| st ev _ IH Hev].
  - constructor.
  - apply step_profit_positive; assumption.
Qed.

Lemma sim_one_tick_reachable : reachable Demo.sim_one_tick.
Proof.
  unfold Demo.sim_one_tick. apply reach_step; [apply reach_step |].
  - apply reach_init.
  - exact I.
  - unfold can_happen, random_ok. simpl.
    split; [reflexivity |]. repeat split; discriminate.
Qed.

Lemma surfaced_opportunities_profitable_witness :
  reachable Demo.sim_one_tick /\
  Forall (fun o => 0 < profitPercentage o)%Q (opportunities Demo.sim_one_tick).
Proof.
  pose proof sim_one_tick_reachable as R.
  split; [exact R | exact (surfaced_opportunities_profitable _ R)].
Defined.

Lemma step_length_bounded st ev :
  (length (opportunities st) <= 50)%nat ->
  (length (opportunities (step st ev)) <= 50)%nat.
Proof.
  intros H. destruct ev; cbn -[firstn]; try exact H.
  - pose proof (firstn_le_length 49 (opportunities st)). lia.
  - rewrite length_set_status_of. exact H.
  - rewrite length_set_status_of. exact H.
Qed.

Lemma reachable_length_bounded st :
  reachable st -> (length (opportunities st) <= 50)%nat.
Proof.
  intros R. induction R as [| st ev _ IH _]; [simpl; lia |].
  apply step_length_bounded; exact IH.
Qed.

(** The success-rate invariant of the simulated statistics. *)
Definition rate_inv (s : Stats) : Prop :=
  0 <= tradesExecuted s /\
  (tradesExecuted s = 0 -> Qeq (successRate s) 0) /\
  (1 <= tradesExecuted s -> Qeq (successRate s) 100).

Lemma success_rate_hundred (n : Z) :
  0 <= n -> (inject_Z (n + 1) / inject_Z (n + 1) * 100 == 100)%Q.
Proof.
  intros Hn.
  assert (Hnz : ~ (inject_Z (n + 1) == 0)%Q) by (unfold Qeq; simpl; lia).
  field. exact Hnz.
Qed.

Lemma execute_timeout_stats st oid rand captured :
  let s' := stats (execute_timeout st oid rand captured) in
  (Qlt (1 # 10) rand -> tradesExecuted s' = tradesExecuted (stats st) + 1 /\
      successRate s' = (inject_Z (tradesExecuted (stats st) + 1)
                        / inject_Z (tradesExecuted (stats st) + 1) * 100)%Q) /\
  (Qle rand (1 # 10) -> s' = stats st).
Proof.
  simpl. unfold execute_timeout. simpl.
  destruct (Qle_bool rand (1 # 10)) eqn:E; simpl.
  - apply Qle_bool_iff in E. split; [intros H; exfalso; lra | reflexivity].
  - split; [intros _; split; reflexivity |].
    intros H. apply Qle_bool_iff in H. congruence.
Qed.

Lemma step_rate_inv st ev :
  rate_inv (stats st) -> rate_inv (stats (step st ev)).
Proof.
  intros Hi. destruct ev; try exact Hi; cbn [step].
  pose proof (execute_timeout_stats st opportunityId rand captured) as [Hs Hf].
  destruct (Qlt_le_dec (1 # 10) rand) as [Hlt | Hle].
  - destruct (Hs Hlt) as [Ht Hr]. destruct Hi as (Hn & _ & _).
    repeat split; rewrite Ht; [lia | intros; lia |].
    intros _. rewrite Hr. apply success_rate_hundred. exact Hn.
  - rewrite (Hf Hle). exact Hi.
Qed.

(** C10: in the simulated dashboard, every successful execution sets the
    success rate to ((n+1)/(n+1))*100 = 100 whatever the history, a failed
    one leaves the statistics untouched, and in every reachable state with
    at least one success the success rate is 100. *)
Theorem success_rate_constant :
  (forall st oid rand captured,
     0 <= tradesExecuted (stats st) -> (1 # 10 < rand)%Q ->
     (successRate (stats (step st (ExecuteTimeout oid rand captured))) == 100)%Q) /\
  (forall st oid rand captured,
     (rand <= 1 # 10)%Q ->
     stats (step st (ExecuteTimeout oid rand captured)) = stats st) /\
  (forall st, reachable st -> 1 <= tradesExecuted (stats st) ->
     (successRate (stats st) == 100)%Q).
Proof.
  split; [| split].
  - intros st oid rand captured Hn Hlt. cbn [step].
    pose proof (execute_timeout_stats st oid rand captured) as [Hs _].
    destruct (Hs Hlt) as [_ Hr]. rewrite Hr. apply success_rate_hundred; exact Hn.
  - intros st oid rand captured Hle. cbn [step].
    pose proof (execute_timeout_stats st oid rand captured) as [_ Hf].
    exact (Hf Hle).
  - intros st R. assert (Hi : rate_inv (stats st)).
    { induction R as [| st ev _ IH _].
      - unfold rate_inv; simpl. repeat split; intros; [reflexivity | lia].
      - apply step_rate_inv; exact IH. }
    exact (proj2 (proj2 Hi)).
Qed.

End SimProperties.

Lemma success_rate_constant_witness :
  Qeq (SimDashboard.successRate
         (SimDashboard.stats (SimDashboard.step Demo.sim_one_tick
                                (SimDashboard.ExecuteTimeout "opp_1" (1 # 2) [])))) 100 /\
  SimDashboard.stats (SimDashboard.step Demo.sim_one_tick
                        (SimDashboard.ExecuteTimeout "opp_1" (1 # 20) []))
    = SimDashboard.stats Demo.sim_one_tick.
Proof.
  split.
  - apply (proj1 success_rate_constant); [vm_compute; discriminate | reflexivity].
  - apply (proj1 (proj2 success_rate_constant)). vm_compute. discriminate.
Defined.

Section ListBounds.
Import LiveDashboard.

Lemma live_step_logs_bounded st ev :
  (length (autoTradeLogs st) <= 50)%nat ->
  (length (autoTradeLogs (fst (step st ev))) <= 50)%nat.
Proof.
  intros H. destruct ev; try exact H.
  - cbn [step fst]. unfold on_opportunity_executed.
    destruct (status data); try exact H;
      destruct (circuit_breaker _ _ _ _ _) as [[f p] a]; cbn -[firstn];
      pose proof (firstn_le_length 49 (autoTradeLogs st)); lia.
  - cbn [step]. unfold toggleBot.
    destruct (negb (isRunning st)), success; exact H.
Qed.

Lemma live_run_logs_bounded st evs :
  (length (autoTradeLogs st) <= 50)%nat ->
  (length (autoTradeLogs (run st evs)) <= 50)%nat.
Proof.
  revert st. induction evs as [| ev evs IH]; intros st H; [exact H |].
  apply IH, live_step_logs_bounded, H.
Qed.

(** C5, as the code has it: the simulated dashboard prepends each new
    opportunity and keeps the first 50 entries, the live dashboard keeps
    at most 50 auto-trade log entries the same way, and the live
    dashboard's opportunity list is whatever the last
    [opportunities_update] message carried. *)
Theorem opportunity_list_bounds :
  (forall st, SimDashboard.reachable st ->
     (length (SimDashboard.opportunities st) <= 50)%nat) /\
  (forall st, reachable st -> (length (autoTradeLogs st) <= 50)%nat) /\
  (forall st data,
     opportunities (fst (step st (WsOpportunitiesUpdate data))) = data).
Proof.
  split; [| split].
  - exact reachable_length_bounded.
  - intros st [evs ->]. apply live_run_logs_bounded. simpl. lia.
  - reflexivity.
Qed.

Lemma opportunity_list_bounds_witness :
  SimDashboard.reachable Demo.sim_one_tick /\
  (length (SimDashboard.opportunities Demo.sim_one_tick) <= 50)%nat.
Proof.
  pose proof sim_one_tick_reachable as R.
  split; [exact R | exact (proj1 opportunity_list_bounds _ R)].
Defined.

(** C5 fails for the live dashboard: one [opportunities_update] message
    of 51 entries gives a reachable state whose opportunity list has 51
    entries. *)
Lemma live_opportunity_list_unbounded :
  reachable (run init [WsOpportunitiesUpdate Demo.many_opps]) /\
  length (opportunities (run init [WsOpportunitiesUpdate Demo.many_opps])) = 51%nat.
Proof.
  split.
  - exists [WsOpportunitiesUpdate Demo.many_opps]. reflexivity.
  - reflexivity.
Qed.

(** C6, as the code has it: [executeOpportunity] sends the request for
    any id; an id absent from the list leaves the list unchanged; the row
    with that id gets status [completed] if the backend answered ok and
    [failed] otherwise, whatever its status was; the Execute button is
    rendered only on rows in status [detected]. *)
Theorem execute_outcome_recorded :
  (forall st oid b,
     let st' := fst (step st (ExecuteOpportunity oid b)) in
     snd (step st (ExecuteOpportunity oid b)) = [CallExecuteOpportunity oid] /\
     (Forall (fun o => id o <> oid) (opportunities st) ->
      opportunities st' = opportunities st) /\
     opportunities st' =
       map (fun o => if String.eqb (id o) oid
                     then with_status o (if b then completed else failed)
                     else o) (opportunities st)) /\
  (forall o, execute_button_visible o = true <-> status o = detected).
Proof.
  split.
  - intros st oid b. split; [reflexivity |]. split; [| reflexivity].
    intros Hall. cbn [step fst executeOpportunity set_opportunities opportunities].
    unfold mark_executed. induction Hall as [| o l Ho _ IH]; [reflexivity |].
    simpl. apply String.eqb_neq in Ho. rewrite Ho. f_equal. exact IH.
  - intros o. unfold execute_button_visible. apply OppStatus_eqb_spec.
Qed.

Lemma execute_outcome_recorded_witness :
  Forall (fun o => id o <> "opp_9"%string) (opportunities Demo.paused) /\
  opportunities (fst (step Demo.paused (ExecuteOpportunity "opp_9" false)))
    = opportunities Demo.paused.
Proof.
  assert (H : Forall (fun o => id o <> "opp_9"%string) (opportunities Demo.paused))
    by (repeat constructor; discriminate).
  split; [exact H |].
  exact (proj1 (proj2 (proj1 execute_outcome_recorded Demo.paused "opp_9"%string false)) H).
Defined.

(** C6 fails: an Execute on a known row in status [executing] that the
    backend rejects changes that row's status to [failed]. *)
Lemma execute_non_detected_changes_list :
  status (Demo.opp "opp_1" (3 # 10) executing) <> detected /\
  opportunities (fst (step Demo.executing_row (ExecuteOpportunity "opp_1" false)))
    <> opportunities Demo.executing_row.
Proof.
  split; [discriminate |].
  vm_compute. discriminate.
Qed.

End ListBounds.

Section BackendClient.
Import BackendAPI.

(** C9: every method of [BackendAPI] settles with a value for every
    transport outcome, never with an exception; the POST methods give
    [false] when the fetch rejects or the status is not 2xx; the GET
    methods give [[]] or [null] on any error (rejection, non-2xx status or
    unparsable body), the same value as a successful empty answer. *)
Theorem backend_api_total :
  (forall o,
     (forall c, startBot c o <> Throw) /\ stopBot o <> Throw /\
     (forall i, executeOpportunity i o <> Throw) /\
     (forall a, toggleAutoTrading a o <> Throw) /\
     getOpportunities o <> Throw /\ getTrades o <> Throw /\
     getTradeStats o <> Throw /\ getStats o <> Throw) /\
  (forall o,
     (o = NetworkError \/ exists b, o = HttpResponse false b) ->
     (forall c, startBot c o = Ret false) /\ stopBot o = Ret false /\
     (forall i, executeOpportunity i o = Ret false) /\
     (forall a, toggleAutoTrading a o = Ret false)) /\
  (forall o,
     is_error o = true ->
     getOpportunities o = Ret (JArr []) /\ getTrades o = Ret (JArr []) /\
     getTradeStats o = Ret JNull /\ getStats o = Ret JNull) /\
  (getOpportunities (HttpResponse true (Some (JArr []))) = getOpportunities NetworkError /\
   getTrades (HttpResponse true (Some (JArr []))) = getTrades NetworkError /\
   getTradeStats (HttpResponse true (Some JNull)) = getTradeStats NetworkError /\
   getStats (HttpResponse true (Some JNull)) = getStats NetworkError).
Proof.
  split; [| split; [| split]].
  - intros o.
    destruct o as [| [|] [j |]]; repeat split; intros; discriminate.
  - intros o [-> | [b ->]]; repeat split; reflexivity.
  - intros o Herr. destruct o as [| [|] [j |]]; try discriminate Herr;
      repeat split; reflexivity.
  - repeat split; reflexivity.
Qed.

Lemma backend_api_total_witness :
  startBot (mkBotConfig (1 # 10) 100 false true []) NetworkError = Ret false /\
  getTradeStats (HttpResponse false (Some (JStr "Internal Server Error"))) = Ret JNull.
Proof.
  split.
  - exact (proj1 (proj1 (proj2 backend_api_total) NetworkError (or_introl eq_refl)) _).
  - exact (proj1 (proj2 (proj2 (proj1 (proj2 (proj2 backend_api_total))
             (HttpResponse false (Some (JStr "Internal Server Error"))) eq_refl)))).
Defined.

End BackendClient.

(** C8: on the scenario snapshot with zero fees, the detector takes 1 USDT
    round USDT -> BTC -> ETH -> USDT to ((1/50000)/0.0585)*3000 = 40/39,
    about 1.0256 USDT, a net profit of about 2.56%; the cycle is among the
    detected opportunities, and once the backend publishes them the live
    dashboard lists it in status [detected] with that percentage. *)
Theorem scenario_cycle_detected :
  (exists final,
     Detector.cycle_final Detector.scenario 0 "USDT" "BTC" "ETH" = Some final /\
     final == ((1 / 50000) / (585 # 10000)) * 3000 /\
     final == 40 # 39 /\
     10255 # 10000 < final < 10257 # 10000)%Q /\
  (exists o,
     In o (LiveDashboard.opportunities
             (LiveDashboard.run LiveDashboard.init
                [LiveDashboard.WsOpportunitiesUpdate
                   (Detector.detect "Binance" 1 Detector.scenario 0
                      ["USDT"; "BTC"; "ETH"]%string)])) /\
     trianglePath o = "USDT -> BTC -> ETH -> USDT"%string /\
     status o = detected /\
     (256 # 100 <= profitPercentage o < 257 # 100)%Q).
Proof.
  split.
  - eexists. split; [reflexivity |].
    repeat split; vm_compute; first [reflexivity | discriminate].
  - eexists. split.
    + vm_compute. left. reflexivity.
    + split; [reflexivity |]. split; [reflexivity |].
      split; vm_compute; first [reflexivity | discriminate].
Qed.

(** * Further properties of the code *)

Section LiveExtras.
Import LiveDashboard.

Lemma map_ex_id_toggle (exs : list ExchangeConfig) (eid : string) :
  map ex_id (map (fun e => if String.eqb (ex_id e) eid then toggle_enabled e else e) exs)
  = map ex_id exs.
Proof.
  induction exs as [| e exs IH]; simpl; [reflexivity |].
  rewrite IH. destruct (String.eqb (ex_id e) eid); reflexivity.
Qed.

Lemma Forall_toggle_connected (exs : list ExchangeConfig) (eid : string) :
  Forall (fun e => connected e = false) exs ->
  Forall (fun e => connected e = false)
    (map (fun e => if String.eqb (ex_id e) eid then toggle_enabled e else e) exs).
Proof.
  intros H. induction H as [| e exs He _ IH]; simpl; constructor; auto.
  destruct (String.eqb (ex_id e) eid); exact He.
Qed.

Lemma Forall_disconnected (exs : list ExchangeConfig) :
  Forall (fun e => connected e = false) (map (fun ex => with_connected ex false) exs).
Proof. induction exs; simpl; constructor; auto. Qed.

Lemma map_ex_id_connected (f : ExchangeConfig -> bool) (exs : list ExchangeConfig) :
  map ex_id (map (fun ex => if f ex then with_connected ex true else ex) exs) = map ex_id exs.
Proof.
  induction exs as [| e exs IH]; simpl; [reflexivity |].
  destruct (f e); simpl; rewrite IH; reflexivity.
Qed.

Lemma map_ex_id_disconnected (exs : list ExchangeConfig) :
  map ex_id (map (fun ex => with_connected ex false) exs) = map ex_id exs.
Proof. induction exs as [| e exs IH]; simpl; congruence. Qed.

Lemma live_step_exchanges_inv st ev :
  exchanges_inv (isRunning st) (exchanges st) ->
  exchanges_inv (isRunning (fst (step st ev))) (exchanges (fst (step st ev))).
Proof.
  intros [Hc Hi]. destruct ev; try (split; assumption).
  - cbn [step fst]. unfold on_opportunity_executed.
    destruct (status data); try (split; assumption);
      destruct (circuit_breaker _ _ _ _ _) as [[f p] a]; split; assumption.
  - cbn [step]. unfold toggleBot.
    destruct (isRunning st) eqn:Er; destruct success; cbn; try rewrite Er in Hc;
      split; try assumption;
      first [ intros _; apply Forall_disconnected
            | rewrite map_ex_id_disconnected; exact Hi
            | intros Hf; discriminate Hf
            | rewrite map_ex_id_connected; exact Hi
            | intros Hf; rewrite Er in Hf; discriminate Hf
            | intros _; apply Hc; reflexivity ].
  - cbn [step fst set_running isRunning exchanges]. split.
    + intros Hr. apply Forall_toggle_connected, Hc, Hr.
    + rewrite map_ex_id_toggle. exact Hi.
Qed.

Theorem live_stopped_disconnected (st : State) :
  reachable st ->
  (isRunning st = false -> Forall (fun e => connected e = false) (exchanges st)) /\
  map ex_id (exchanges st) = map ex_id init_exchanges.
Proof.
  intros [evs ->].
  assert (H : forall s, exchanges_inv (isRunning s) (exchanges s) ->
              exchanges_inv (isRunning (run s evs)) (exchanges (run s evs))).
  { induction evs as [| ev evs IH]; intros s Hs; [exact Hs |].
    apply IH, live_step_exchanges_inv, Hs. }
  apply H. split; [intros _; repeat constructor | reflexivity].
Qed.

Lemma live_stopped_disconnected_witness :
  reachable (run init [ToggleBot true; ToggleBot true]) /\
  Forall (fun e => connected e = false)
    (exchanges (run init [ToggleBot true; ToggleBot true])).
Proof.
  assert (R : reachable (run init [ToggleBot true; ToggleBot true]))
    by (exists [ToggleBot true; ToggleBot true]; reflexivity).
  split; [exact R |].
  exact (proj1 (live_stopped_disconnected _ R) eq_refl).
Defined.

End LiveExtras.

Lemma toggle_exchange_twice (exs : list ExchangeConfig) (eid : string) :
  let f := fun e => if String.eqb (ex_id e) eid then toggle_enabled e else e in
  map f (map f exs) = exs.
Proof.
  induction exs as [| e exs IH]; simpl; [reflexivity |].
  rewrite IH. destruct (String.eqb (ex_id e) eid) eqn:E; simpl.
  - rewrite E. unfold toggle_enabled. destruct e; cbn.
    destruct enabled0; reflexivity.
  - rewrite E. reflexivity.
Qed.

(** Toggling the same exchange twice gives back the state it started
    from, in both dashboards. *)
Theorem toggle_exchange_round_trip :
  (forall (st : LiveDashboard.State) (eid : string),
     fst (LiveDashboard.step (fst (LiveDashboard.step st (LiveDashboard.ToggleExchange eid)))
            (LiveDashboard.ToggleExchange eid)) = st) /\
  (forall (st : SimDashboard.State) (eid : string),
     SimDashboard.step (SimDashboard.step st (SimDashboard.ToggleExchange eid))
       (SimDashboard.ToggleExchange eid) = st).
Proof.
  split; intros st eid; destruct st; cbn;
    rewrite (toggle_exchange_twice _ eid); reflexivity.
Qed.

Lemma mark_executed_rows (l : list ArbitrageOpportunity) (oid : string) (b : bool) :
  map id (LiveDashboard.mark_executed l oid b) = map id l /\
  filter (fun o => negb (String.eqb (id o) oid)) (LiveDashboard.mark_executed l oid b)
  = filter (fun o => negb (String.eqb (id o) oid)) l.
Proof.
  induction l as [| o l [IH1 IH2]]; simpl; [split; reflexivity |].
  destruct (String.eqb (id o) oid) eqn:E; simpl; rewrite ?E, IH1, IH2; split; reflexivity.
Qed.

Lemma set_status_of_rows (l : list ArbitrageOpportunity) (oid : string) (s : OppStatus) :
  map id (SimDashboard.set_status_of l oid s) = map id l /\
  filter (fun o => negb (String.eqb (id o) oid)) (SimDashboard.set_status_of l oid s)
  = filter (fun o => negb (String.eqb (id o) oid)) l.
Proof.
  induction l as [| o l [IH1 IH2]]; simpl; [split; reflexivity |].
  destruct (String.eqb (id o) oid) eqn:E; simpl; rewrite ?E, IH1, IH2; split; reflexivity.
Qed.

(** Executing an opportunity never adds, removes or reorders rows and
    leaves every row with another id as it was, in both dashboards
    (live [executeOpportunity]; simulated click and its timeout). *)
Theorem execute_keeps_other_rows (oid : string) :
  (forall (st : LiveDashboard.State) (b : bool),
     let l' := LiveDashboard.opportunities
                 (fst (LiveDashboard.step st (LiveDashboard.ExecuteOpportunity oid b))) in
     map id l' = map id (LiveDashboard.opportunities st) /\
     filter (fun o => negb (String.eqb (id o) oid)) l'
     = filter (fun o => negb (String.eqb (id o) oid)) (LiveDashboard.opportunities st)) /\
  (forall (st : SimDashboard.State) (ev : SimDashboard.Event),
     (ev = SimDashboard.ExecuteClick oid \/
      exists r c, ev = SimDashboard.ExecuteTimeout oid r c) ->
     let l' := SimDashboard.opportunities (SimDashboard.step st ev) in
     map id l' = map id (SimDashboard.opportunities st) /\
     filter (fun o => negb (String.eqb (id o) oid)) l'
     = filter (fun o => negb (String.eqb (id o) oid)) (SimDashboard.opportunities st)).
Proof.
  split.
  - intros st b. apply mark_executed_rows.
  - intros st ev [-> | (r & c & ->)]; apply set_status_of_rows.
Qed.

Lemma execute_keeps_other_rows_witness :
  map id (SimDashboard.opportunities
            (SimDashboard.step Demo.sim_one_tick (SimDashboard.ExecuteClick "opp_1")))
  = map id (SimDashboard.opportunities Demo.sim_one_tick).
Proof.
  exact (proj1 (proj2 (execute_keeps_other_rows "opp_1") Demo.sim_one_tick
                  (SimDashboard.ExecuteClick "opp_1") (or_introl eq_refl))).
Defined.

Section SimExtras.
Import SimDashboard.

Lemma sim_step_found st ev :
  (Z.of_nat (length (opportunities st)) <= opportunitiesFound (stats st))%Z ->
  (Z.of_nat (length (opportunities (step st ev))) <= opportunitiesFound (stats (step st ev)))%Z.
Proof.
  intros H. destruct ev; try exact H.
  - cbn [step tick opportunities stats opportunitiesFound length]. rewrite Nat2Z.inj_succ.
    rewrite length_firstn. lia.
  - cbn -[firstn]. rewrite length_set_status_of. exact H.
  - cbn [step]. unfold execute_timeout. cbn -[firstn]. rewrite length_set_status_of.
    destruct (negb (Qle_bool rand (1 # 10))); exact H.
Qed.

(** In the simulated dashboard the opportunity list never holds more rows
    than the "opportunities found" counter shows. *)
Theorem sim_list_within_found (st : State) :
  reachable st ->
  (Z.of_nat (length (opportunities st)) <= opportunitiesFound (stats st))%Z.
Proof.
  intros R. induction R as [| st ev _ IH _]; [simpl; lia |].
  apply sim_step_found, IH.
Qed.

Lemma sim_list_within_found_witness :
  reachable Demo.sim_one_tick /\
  (Z.of_nat (length (opportunities Demo.sim_one_tick))
     <= opportunitiesFound (stats Demo.sim_one_tick))%Z.
Proof.
  pose proof sim_one_tick_reachable as R.
  split; [exact R | exact (sim_list_within_found _ R)].
Defined.

(** In the simulated dashboard, a stopped bot has no exchange marked
    connected, and the exchange list keeps its ids and order. *)
Theorem sim_stopped_disconnected (st : State) :
  reachable st ->
  (isRunning st = false -> Forall (fun e => connected e = false) (exchanges st)) /\
  map ex_id (exchanges st) = map ex_id init_exchanges.
Proof.
  intros R. induction R as [| st ev _ [Hc Hi] _].
  - split; [intros _; repeat constructor | reflexivity].
  - destruct ev; try (split; assumption).
    + cbn [step toggleBot isRunning exchanges].
      destruct (isRunning st); cbn; split.
      * intros _. apply Forall_disconnected.
      * rewrite map_ex_id_disconnected. exact Hi.
      * intros Hf; discriminate Hf.
      * rewrite map_ex_id_connected. exact Hi.
    + cbn [step isRunning exchanges]. split.
      * intros Hr. apply Forall_toggle_connected, Hc, Hr.
      * rewrite map_ex_id_toggle. exact Hi.
Qed.

Lemma sim_stopped_disconnected_witness :
  reachable (step Demo.sim_one_tick ToggleBot) /\
  Forall (fun e => connected e = false) (exchanges (step Demo.sim_one_tick ToggleBot)).
Proof.
  pose proof sim_one_tick_reachable as R.
  assert (R' : reachable (step Demo.sim_one_tick ToggleBot))
    by (apply reach_step; [exact R | exact I]).
  split; [exact R' | exact (proj1 (sim_stopped_disconnected _ R') eq_refl)].
Defined.

End SimExtras.

Section WsReconnect.
Import WsConnection.

(** [disconnectWebSocket] clears [this.ws], but closing the socket runs its
    [onclose], which schedules [connectWebSocket] again: five seconds after
    a disconnect a fresh socket is open. *)
Theorem ws_disconnect_reconnects (st : State) (s : nat) :
  ws st = Some s ->
  ws (run st [Disconnect]) = None /\
  ws (run st [Disconnect; SocketClosed s; ReconnectTimer]) = Some (next_socket st).
Proof.
  intros Hs. destruct st as [w n p]. cbn in Hs. subst w. split; reflexivity.
Qed.

Lemma ws_disconnect_reconnects_witness :
  ws (connectWebSocket init) = Some 0%nat /\
  ws (run (connectWebSocket init) [Disconnect; SocketClosed 0; ReconnectTimer]) = Some 1%nat.
Proof.
  split; [reflexivity |].
  exact (proj2 (ws_disconnect_reconnects (connectWebSocket init) 0 eq_refl)).
Defined.

End WsReconnect.

Lemma enabled_ids_disconnected (exs : list ExchangeConfig) :
  map ex_id (filter enabled (map (fun ex => with_connected ex false) exs))
  = map ex_id (filter enabled exs).
Proof.
  induction exs as [| e exs IH]; simpl; [reflexivity |].
  destruct (enabled e); simpl; rewrite IH; reflexivity.
Qed.

Section LiveToggleBot.
Import LiveDashboard.

(** [toggleBot] of the live dashboard: when the backend answers [false] the
    dashboard state is left as it was (one call was still sent).  Stopping
    a running bot switches auto-trading off, so the next start asks the
    backend for [autoTradingMode: false] with the same settings and
    enabled exchanges as before, unless the switch is turned on again in
    between. *)
Theorem live_stop_then_start (st : State) :
  fst (step st (ToggleBot false)) = st /\
  (isRunning st = true ->
   let st1 := fst (step st (ToggleBot true)) in
   isRunning st1 = false /\ autoTrading st1 = false /\
   snd (step st1 (ToggleBot true))
   = [CallStartBot (minProfit st) (maxTradeAmount st) false (paperTrading st)
        (map ex_id (filter enabled (exchanges st)))]).
Proof.
  split.
  - cbn [step]; unfold toggleBot. destruct (isRunning st); reflexivity.
  - intros Hr. cbn [step]; unfold toggleBot. rewrite Hr. cbn.
    rewrite enabled_ids_disconnected. repeat split; reflexivity.
Qed.

Lemma live_stop_then_start_witness :
  let st := fst (step init (ToggleBot true)) in
  isRunning st = true /\
  autoTrading (fst (step st (ToggleBot true))) = false.
Proof.
  cbv zeta. split; [reflexivity |].
  exact (proj1 (proj2 (proj2 (live_stop_then_start (fst (step init (ToggleBot true)))) eq_refl))).
Defined.

End LiveToggleBot.


Section Subscription.
Import LiveSession.

(** With the threshold it was created with equal to the current one, the
    WebSocket callback is the handler step of the dashboard model. *)
Lemma handler_current_threshold (st : LD.State) (msg : Message) :
  handler (LD.maxConsecutiveFails st) st msg
  = fst (LD.step st (match msg with
                     | MsgOpportunitiesUpdate d => LD.WsOpportunitiesUpdate d
                     | MsgOpportunityExecuted d => LD.WsOpportunityExecuted d
                     | MsgOther => LD.WsOther
                     end)).
Proof.
  destruct msg as [d | d |]; try reflexivity.
  destruct st; cbn [handler LD.step fst with_max LD.maxConsecutiveFails].
  unfold LD.on_opportunity_executed; cbn.
  destruct (status d); try reflexivity;
    destruct (LD.circuit_breaker _ _ _ _ _) as [[f p] a]; reflexivity.
Qed.

(** C1 (code_bug): after the threshold is raised from 3 to 5, the socket
    closed by the effect cleanup reconnects with the callback of the old
    render, and the socket of the new render stays open.  Each failed
    completion message then runs two handlers: one message moves the
    counter from 0 to 2, and the second one from 2 to 4 and sets the
    paused flag, although 4 is below the configured threshold 5. *)
Theorem breaker_stale_threshold :
  let s1 := run init Demo.threshold_change_run in
  let s2 := step s1 (Server Demo.fail_msg) in
  open_sockets s1 = [(1%nat, 5); (2%nat, 3)] /\
  LD.maxConsecutiveFails (dash s1) = 5 /\
  LD.consecutiveFails (dash s1) = 2 /\ LD.pausedAutoTrading (dash s1) = false /\
  LD.maxConsecutiveFails (dash s2) = 5 /\
  LD.consecutiveFails (dash s2) = 4 /\ LD.pausedAutoTrading (dash s2) = true.
Proof.
  vm_compute. repeat split.
Qed.

(** Whenever the threshold changes while one socket is subscribed, the old
    socket's [onclose] and its reconnect timer leave two sockets open: the
    new render's one and a fresh one with the old render's callback, so
    every later message is handled under both thresholds. *)
Theorem threshold_change_duplicates_socket (s : Session) (n : nat) (v : Z) :
  ws s = Some n -> open_sockets s = [(n, LD.maxConsecutiveFails (dash s))] ->
  closing s = [] -> timers s = [] ->
  v <> LD.maxConsecutiveFails (dash s) ->
  let s' := run s [Ui (LD.SetMaxConsecutiveFails v); OnClose; TimerFires] in
  open_sockets s' = [(next_socket s, v); (S (next_socket s), LD.maxConsecutiveFails (dash s))] /\
  ws s' = Some (S (next_socket s)) /\
  LD.maxConsecutiveFails (dash s') = v.
Proof.
  intros Hws Ho Hc Ht Hv.
  destruct s as [d os w nx cl tm]; cbn in Hws, Ho, Hc, Ht, Hv |- *; subst.
  destruct d; cbn in Hv |- *.
  destruct (Z.eqb_spec v maxConsecutiveFails) as [E | _]; [contradiction |].
  unfold disconnect, set_dash; cbn. rewrite Nat.eqb_refl. cbn. repeat split.
Qed.

Lemma threshold_change_duplicates_socket_witness :
  let s := step init Mount in
  ws s = Some 0%nat /\
  open_sockets (run s [Ui (LD.SetMaxConsecutiveFails 5); OnClose; TimerFires])
  = [(1%nat, 5); (2%nat, 3)].
Proof.
  cbv zeta. split; [reflexivity |].
  exact (proj1 (threshold_change_duplicates_socket (step init Mount) 0 5
                  eq_refl eq_refl eq_refl eq_refl ltac:(discriminate))).
Defined.

End Subscription.

Section AutoPause.
Import LiveDashboard.

(** C3 (code_bug): the message that trips the breaker sets the dashboard's
    paused flag and switches its [autoTrading] flag off, but sends nothing
    to the backend: over the whole run the only call is the [startBot]
    that asked for [autoTradingMode: true], and [toggleAutoTrading] is
    never called, so the backend's automatic execution is not disabled. *)
Theorem auto_pause_not_sent :
  let st := run init Demo.auto_pause_run in
  pausedAutoTrading st = true /\ autoTrading st = false /\
  run_calls init Demo.auto_pause_run = [CallStartBot (1 # 10) 100 true true ["binance"%string]].
Proof.
  vm_compute. repeat split.
Qed.

End AutoPause.
